(** * QuadTree: depth-indexed quadrant registry and power-of-four helpers

    A shallow embedding of [Assignment4/Assignment4_files/code/quadtree.py]:
    the class [QuadTree] with its constructor, the recursive subdivision
    [recurse], the query [quadrants] and the three static helpers
    [at_least], [at_most] and [level]. *)

From Stdlib Require Import ZArith QArith Lia List PrimFloat FloatOps SpecFloat.
From stdpp Require Import base gmap list.
Import ListNotations.

Local Open Scope Z_scope.

(** ** Python values and exceptions *)

(** The exceptions the modelled code can raise. *)
Inductive exn : Type :=
| KeyError (k : Z)          (* [self.quads[k]] on an absent key *)
| ValueError                (* math domain error, or ceil/floor of a NaN *)
| OverflowError             (* ceil/floor of an infinity *)
| ZeroDivisionError         (* float division by zero *)
| RecursionError.           (* calls nested beyond the recursion limit *)

Inductive result (A : Type) : Type :=
| Ok (a : A)
| Raise (e : exn).
Arguments Ok {A} a.
Arguments Raise {A} e.

Definition bind {A B} (r : result A) (k : A -> result B) : result B :=
  match r with
  | Ok a => k a
  | Raise e => Raise e
  end.

Declare Scope result_scope.
Delimit Scope result_scope with result.
Bind Scope result_scope with result.
Notation "'let!' x ':=' r 'in' k" := (bind r (fun x => k))
  (at level 10, x name, r at level 100, k at level 200) : result_scope.

(** What [4 ** e] evaluates to: an [int] for [e >= 0], a [float] otherwise. *)
Inductive pyval : Type :=
| PyInt (z : Z)
| PyFloat (f : float).

(** ** The arithmetic helpers *)

Module Helpers.

Local Open Scope result_scope.

(** [float(n)] for a Python [int]: the nearest binary64, ties to even.
    Integers that round to [2^1024] or more give an infinity here;
    [PyLong_AsDouble] reports an overflow for them. *)
Definition float_of_int (n : Z) : float :=
  SF2Prim (binary_normalize prec emax n 0 false).

(** [_PyLong_Frexp]: a positive [n] as [x * 2^e] with [0.5 <= x < 1], [x]
    rounded to 53 bits, ties to even. *)
Definition long_frexp (n : Z) : float * Z :=
  let e := Z.log2 n + 1 in
  let x := SF2Prim (binary_normalize prec emax n (- e) false) in
  if (x =? 1)%float then (0.5%float, e + 1) else (x, e).

Section WithLibm.

(** The natural logarithm of the platform's C library, [log] of libm, which
    [math.log] calls.  No standard fixes its result bit for bit. *)
Variable ln : float -> float.

(** [loghelper(arg, m_log)] of CPython's [mathmodule.c] on an [int]. *)
Definition loghelper (n : Z) : result float :=
  if n <=? 0 then Raise ValueError
  else
    let x := float_of_int n in
    if is_infinity x then
      let '(m, e) := long_frexp n in
      Ok (ln m + ln 2 * float_of_int e)%float
    else Ok (ln x).

(** [math.log(size, 4)]: the quotient of the two natural logarithms. *)
Definition math_log (size base : Z) : result float :=
  let! num := loghelper size in
  let! den := loghelper base in
  if is_zero den then Raise ZeroDivisionError else Ok (num / den)%float.

(** The integer value [m * 2^e], rounded towards minus infinity. *)
Definition floor_scaled (m e : Z) : Z :=
  if 0 <=? e then m * 2 ^ e else m / 2 ^ (- e).

(** [math.floor(x)] *)
Definition math_floor (x : float) : result Z :=
  match Prim2SF x with
  | S754_nan => Raise ValueError
  | S754_infinity _ => Raise OverflowError
  | S754_zero _ => Ok 0
  | S754_finite s m e => Ok (floor_scaled (if s then Z.neg m else Z.pos m) e)
  end.

(** [math.ceil(x)] *)
Definition math_ceil (x : float) : result Z :=
  match Prim2SF x with
  | S754_nan => Raise ValueError
  | S754_infinity _ => Raise OverflowError
  | S754_zero _ => Ok 0
  | S754_finite s m e => Ok (- floor_scaled (if s then Z.pos m else Z.neg m) e)
  end.

(** [4 ** e] *)
Definition pow4 (e : Z) : pyval :=
  if 0 <=? e then PyInt (4 ^ e) else PyFloat (Z.ldexp 1 (2 * e)).

(** [return int(math.ceil(math.log(size, 4)))] *)
Definition level (size : Z) : result Z :=
  let! x := math_log size 4 in math_ceil x.

(** [return 4 ** int(math.ceil(math.log(size, 4)))] *)
Definition at_least (size : Z) : result pyval :=
  let! x := math_log size 4 in let! e := math_ceil x in Ok (pow4 e).

(** [return 4 ** int(math.floor(math.log(size, 4)))] *)
Definition at_most (size : Z) : result pyval :=
  let! x := math_log size 4 in let! e := math_floor x in Ok (pow4 e).

End WithLibm.

(** Arguments and results of [log] as glibc computes it on x86-64, in
    hexadecimal; each result is the binary64 nearest to the real
    logarithm. *)
Definition glibc_log : list (float * float) :=
  [ (1, 0);
    (4, 0x1.62e42fefa39efp+0);
    (5, 0x1.9c041f7ed8d33p+0);
    (16, 0x1.62e42fefa39efp+1);
    (17, 0x1.6aa6bc1fa7f7ap+1);
    (900, 0x1.b35a6f90bd69bp+2);
    (0x1p+54, 0x1.2b708872320e2p+5);
    (0x1p+58, 0x1.419ecb712c481p+5) ]%float.

(** [ln] returns what glibc returns at the arguments listed. *)
Definition agrees_with_glibc (ln : float -> float) : Prop :=
  forall x y, In (x, y) glibc_log -> ln x = y.

(** A logarithm that knows the listed arguments only. *)
Definition table_log (x : float) : float :=
  match find (fun p => Leibniz.eqb (fst p) x) glibc_log with
  | Some p => snd p
  | None => nan
  end.

End Helpers.

(** ** The class [QuadTree] *)

Module QuadTree.

Section WithBoundingBox.

Context {BoundingBox : Type}.

(** [bbox.compute_quads()]: the module [boundingbox] is imported by
    [quadtree.py] and is not part of the sources; the subdivision is
    parametric in it. *)
Variable compute_quads : BoundingBox -> list BoundingBox.

(** The attributes [self.quads] and [self.depth] of a [QuadTree] object,
    with a ghost log [splits] of the boxes [compute_quads] was called on,
    in call order. *)
Record state : Type := State {
  quads : gmap Z (list BoundingBox);
  depth : Z;
  splits : list BoundingBox
}.

(** Statements that read and update the object and may raise. *)
Definition M (A : Type) : Type := state -> result A * state.

Definition ret {A} (a : A) : M A := fun s => (Ok a, s).

Definition raise {A} (e : exn) : M A := fun s => (Raise e, s).

Definition bindM {A C} (c : M A) (k : A -> M C) : M C :=
  fun s =>
    match c s with
    | (Ok a, s') => k a s'
    | (Raise e, s') => (Raise e, s')
    end.

Declare Scope M_scope.
Delimit Scope M_scope with M.
Bind Scope M_scope with M.
Local Open Scope M_scope.
Notation "'let!' x ':=' c 'in' k" := (bindM c (fun x => k))
  (at level 10, x name, c at level 100, k at level 200) : M_scope.
Notation "c ;; k" := (bindM c (fun _ => k))
  (at level 100, k at level 200, right associativity) : M_scope.

(** [for x in l: body(x)] *)
Fixpoint for_each {A} (l : list A) (body : A -> M unit) : M unit :=
  match l with
  | [] => ret tt
  | x :: l' => (body x ;; for_each l' body)%M
  end.

(** [self.depth] *)
Definition get_depth : M Z := fun s => (Ok (depth s), s).

(** [self.depth = d] *)
Definition set_depth (d : Z) : M unit :=
  fun s => (Ok tt, State (quads s) d (splits s)).

(** [self.quads = {}] *)
Definition clear_quads : M unit :=
  fun s => (Ok tt, State ∅ (depth s) (splits s)).

(** [self.quads[k] = l] *)
Definition setitem (k : Z) (l : list BoundingBox) : M unit :=
  fun s => (Ok tt, State (<[k := l]> (quads s)) (depth s) (splits s)).

(** [self.quads[k].append(quad)]; the subscript raises on an absent key. *)
Definition append_quad (k : Z) (quad : BoundingBox) : M unit :=
  fun s =>
    match quads s !! k with
    | None => (Raise (KeyError k), s)
    | Some l => (Ok tt, State (<[k := l ++ [quad]]> (quads s)) (depth s) (splits s))
    end.

(** [bbox.compute_quads()], logged. *)
Definition call_compute_quads (bbox : BoundingBox) : M (list BoundingBox) :=
  fun s => (Ok (compute_quads bbox),
            State (quads s) (depth s) (splits s ++ [bbox])).

(** [QuadTree.recurse(self, bbox, depth)].  [fuel] is the number of nested
    calls the interpreter still allows. *)
Fixpoint recurse (fuel : nat) (bbox : BoundingBox) (d : Z) : M unit :=
  match fuel with
  | O => raise RecursionError
  | S fuel' =>
      (let! self_depth := get_depth in
       if self_depth =? d then ret tt
       else
         let! qs := call_compute_quads bbox in
         for_each qs (fun quad =>
           append_quad d quad ;;
           recurse fuel' quad (d + 1)))%M
  end.

(** [QuadTree.__init__(self, bbox, depth)] *)
Definition init (fuel : nat) (bbox : BoundingBox) (dep : Z) : M unit :=
  (clear_quads ;;
   set_depth dep ;;
   for_each (seqZ 0 dep) (fun x => setitem x []) ;;
   setitem 0 [bbox] ;;
   recurse fuel bbox 1)%M.

(** A fresh object, before [__init__] has run. *)
Definition blank : state := State ∅ 0 [].

(** [QuadTree(bbox, depth)] *)
Definition new (fuel : nat) (bbox : BoundingBox) (dep : Z) : result unit * state :=
  init fuel bbox dep blank.

(** [QuadTree.quadrants(self)] *)
Definition quadrants (s : state) : gmap Z (list BoundingBox) := quads s.

(** The boxes [j] subdivisions below the boxes [bs], parent by parent. *)
Fixpoint gen (j : nat) (bs : list BoundingBox) : list BoundingBox :=
  match j with
  | O => bs
  | S j' => gen j' (flat_map compute_quads bs)
  end.

(** The boxes split by a subdivision [n] levels deep below [bbox], in
    call order. *)
Fixpoint preorder (n : nat) (bbox : BoundingBox) : list BoundingBox :=
  match n with
  | O => []
  | S n' => bbox :: flat_map (preorder n') (compute_quads bbox)
  end.

(** What a subdivision adds to the sequence [l] stored at level [k], when
    the boxes [bs] go to level [d] and it stops at level [top]. *)
Definition grown (top d : Z) (bs : list BoundingBox) (k : Z)
    (l : list BoundingBox) : list BoundingBox :=
  if bool_decide (d <= k < top) then l ++ gen (Z.to_nat (k - d)) bs else l.

(** Construction failed before any box was split. *)
Definition rejected_up_front (r : result unit * state) : Prop :=
  exists e s, r = (Raise e, s) /\ splits s = [].

End WithBoundingBox.

End QuadTree.

(** ** A bounding box for the examples *)

Module BoundingBox.

(** Modelled from the spec: [boundingbox.BoundingBox] is not part of the
    sources.  An axis-aligned rectangle with four scalar bounds,
    [BoundingBox(2, 9, 1, 7)] spanning x from 2 to 9 and y from 1 to 7. *)
Record t : Type := Box { x_min : Q; x_max : Q; y_min : Q; y_max : Q }.

(** The midpoint of two bounds, as a reduced fraction. *)
Definition mid (a b : Q) : Q := Qred ((a + b) / 2).

(** Modelled from the spec: the four equal sub-rectangles that tile the
    box.  The spec leaves their order to the collaborator; this one goes
    lower left, lower right, upper left, upper right. *)
Definition compute_quads (b : t) : list t :=
  let xm := mid (x_min b) (x_max b) in
  let ym := mid (y_min b) (y_max b) in
  [ Box (x_min b) xm (y_min b) ym;
    Box xm (x_max b) (y_min b) ym;
    Box (x_min b) xm ym (y_max b);
    Box xm (x_max b) ym (y_max b) ].

(** Modelled from the spec: the area the box covers. *)
Definition area (b : t) : Q := (x_max b - x_min b) * (y_max b - y_min b).

(** [bb.BoundingBox(2, 9, 1, 7)], the box of the docstring of [__init__]. *)
Definition example : t := Box 2 9 1 7.

(** A collaborator that breaks the contract: two halves instead of four
    quarters. *)
Definition compute_halves (b : t) : list t :=
  let xm := mid (x_min b) (x_max b) in
  [ Box (x_min b) xm (y_min b) (y_max b);
    Box xm (x_max b) (y_min b) (y_max b) ].

End BoundingBox.

(** The sum of the areas of a sequence of boxes. *)
Definition total_area {B : Type} (area : B -> Q) (l : list B) : Q :=
  foldr (fun b acc => area b + acc)%Q 0%Q l.

(** ** The subdivision, level by level *)

Section SubdivisionFacts.

Context {B : Type}.
Variable compute_quads : B -> list B.

Import QuadTree.

Local Abbreviation gen := (QuadTree.gen compute_quads).
Local Abbreviation grown := (QuadTree.grown compute_quads).
Local Abbreviation preorder := (QuadTree.preorder compute_quads).
Local Abbreviation recurse := (QuadTree.recurse compute_quads).
Local Abbreviation new := (QuadTree.new compute_quads).
Local Abbreviation state := (@QuadTree.state B).

Lemma gen_app (j : nat) (a b : list B) : gen j (a ++ b) = gen j a ++ gen j b.
Proof.
  revert a b; induction j as [|j IH]; intros a b; simpl; [reflexivity|].
  rewrite flat_map_app. apply IH.
Qed.

Lemma gen_nil (j : nat) : gen j [] = [].
Proof. induction j as [|j IH]; [reflexivity | exact IH]. Qed.

Lemma gen_succ (j : nat) (bs : list B) :
  gen (S j) bs = flat_map compute_quads (gen j bs).
Proof.
  revert bs; induction j as [|j IH]; intros bs; [reflexivity|].
  change (gen (S (S j)) bs) with (gen (S j) (flat_map compute_quads bs)).
  rewrite IH. reflexivity.
Qed.

Lemma gen_cons (j : nat) (q : B) (qs : list B) :
  gen (S j) (q :: qs) = gen j (compute_quads q) ++ gen (S j) qs.
Proof. simpl. apply gen_app. Qed.

Lemma gen_singleton (j : nat) (b : B) : gen (S j) [b] = gen j (compute_quads b).
Proof. simpl. rewrite app_nil_r. reflexivity. Qed.

(** [recurse] called [n] levels above the requested depth, with room for
    more than [n] nested calls and every slot from [d] on present: it
    returns, having appended to each level from [d] on the descendants of
    [b] that belong there. *)
Lemma recurse_levels (n : nat) :
  forall (fuel : nat) (b : B) (d : Z) (s : state),
    depth s = d + Z.of_nat n ->
    (n < fuel)%nat ->
    (forall k, d <= k < depth s -> is_Some (quads s !! k)) ->
    exists s',
      recurse fuel b d s = (Ok tt, s') /\
      depth s' = depth s /\
      splits s' = splits s ++ preorder n b /\
      forall k, quads s' !! k = grown (depth s) d (compute_quads b) k <$> quads s !! k.
Proof.
  induction n as [|n IH]; intros fuel b d s Hd Hfuel Hkeys.
  - destruct fuel as [|fuel]; [lia|].
    exists s. simpl. unfold bindM, get_depth.
    replace (depth s =? d) with true by (symmetry; apply Z.eqb_eq; lia).
    split; [reflexivity|]. split; [reflexivity|].
    split; [by rewrite app_nil_r|].
    intros k. unfold QuadTree.grown. rewrite bool_decide_eq_false_2 by lia.
    by destruct (quads s !! k).
  - destruct fuel as [|fuel]; [lia|].
    cbn [QuadTree.recurse]. unfold bindM at 1, get_depth.
    replace (depth s =? d) with false by (symmetry; apply Z.eqb_neq; lia).
    unfold bindM at 1, call_compute_quads.
    set (s0 := State (quads s) (depth s) (splits s ++ [b])).
    set (body := fun quad =>
      bindM (append_quad d quad) (fun _ => recurse fuel quad (d + 1))).
    assert (Hloop : forall (qs : list B) (s1 : state),
      depth s1 = depth s ->
      (forall k, d <= k < depth s -> is_Some (quads s1 !! k)) ->
      exists s',
        for_each qs body s1 = (Ok tt, s') /\
        depth s' = depth s /\
        splits s' = splits s1 ++ flat_map (preorder n) qs /\
        forall k, quads s' !! k = grown (depth s) d qs k <$> quads s1 !! k).
    { induction qs as [|q qs IHqs]; intros s1 Hd1 Hk1.
      - exists s1. simpl.
        split; [reflexivity|]. split; [exact Hd1|].
        split; [by rewrite app_nil_r|].
        intros k. unfold QuadTree.grown. case_bool_decide.
        + rewrite gen_nil.
          destruct (quads s1 !! k); simpl; by rewrite ?app_nil_r.
        + by destruct (quads s1 !! k).
      - destruct (Hk1 d ltac:(lia)) as [l Hl].
        set (s2 := State (<[d := l ++ [q]]> (quads s1)) (depth s1) (splits s1)).
        destruct (IH fuel q (d + 1) s2) as (s3 & Hrun & Hd3 & Hsp3 & Hq3).
        { simpl. lia. }
        { lia. }
        { intros k Hk. simpl. rewrite lookup_insert_ne by lia.
          apply Hk1. simpl in Hk. lia. }
        destruct (IHqs s3) as (s4 & Hrun4 & Hd4 & Hsp4 & Hq4).
        { rewrite Hd3. simpl. exact Hd1. }
        { intros k Hk. rewrite Hq3. apply fmap_is_Some. simpl.
          destruct (decide (d = k)) as [->|Hne].
          - rewrite lookup_insert_eq. eauto.
          - rewrite lookup_insert_ne by done. by apply Hk1. }
        exists s4. split; [|split; [|split]].
        + simpl. unfold bindM at 1. unfold body at 1.
          unfold bindM at 1. unfold append_quad. rewrite Hl.
          fold s2. rewrite Hrun. exact Hrun4.
        + exact Hd4.
        + rewrite Hsp4, Hsp3. simpl. by rewrite app_assoc.
        + intros k. rewrite Hq4, Hq3. simpl.
          destruct (decide (d = k)) as [<-|Hne].
          * rewrite lookup_insert_eq, Hl. simpl. f_equal.
            unfold QuadTree.grown. rewrite Hd1.
            rewrite (bool_decide_eq_false_2 (d + 1 <= d < _)) by lia.
            rewrite !(bool_decide_eq_true_2 (d <= d < _)) by lia.
            rewrite Z.sub_diag. simpl. by rewrite <- app_assoc.
          * rewrite lookup_insert_ne by done.
            destruct (quads s1 !! k) as [l'|]; [|done]. simpl. f_equal.
            unfold QuadTree.grown. rewrite Hd1.
            destruct (decide (d + 1 <= k < depth s)) as [Hin|Hout].
            -- rewrite !bool_decide_eq_true_2 by lia.
               replace (Z.to_nat (k - d)) with (S (Z.to_nat (k - (d + 1)))) by lia.
               rewrite gen_cons. by rewrite <- app_assoc.
            -- rewrite !bool_decide_eq_false_2 by lia. done. }
    destruct (Hloop (compute_quads b) s0) as (s' & Hrun & Hd' & Hsp' & Hq').
    { reflexivity. }
    { exact Hkeys. }
    exists s'. split; [exact Hrun|]. split; [exact Hd'|]. split; [|exact Hq'].
    rewrite Hsp'. simpl. by rewrite <- app_assoc.
Qed.

(** The loop of [__init__] that stores an empty list at every index. *)
Lemma init_slots (xs : list Z) :
  forall s : state,
    exists s',
      for_each xs (fun x => setitem x []) s = (Ok tt, s') /\
      depth s' = depth s /\
      splits s' = splits s /\
      forall k, quads s' !! k = if bool_decide (k ∈ xs) then Some [] else quads s !! k.
Proof.
  induction xs as [|x xs IH]; intros s.
  - exists s. do 3 (split; [reflexivity|]).
    intros k. rewrite bool_decide_eq_false_2; [done | apply not_elem_of_nil].
  - destruct (IH (State (<[x := []]> (quads s)) (depth s) (splits s)))
      as (s' & Hrun & Hd & Hsp & Hq).
    exists s'. cbn [for_each]. unfold bindM at 1. unfold setitem at 1.
    split; [exact Hrun|]. split; [exact Hd|]. split; [exact Hsp|].
    intros k. rewrite Hq. cbn [quads].
    destruct (decide (k ∈ xs)) as [Hin|Hnin].
    + rewrite (bool_decide_eq_true_2 (k ∈ xs)) by done.
      rewrite (bool_decide_eq_true_2 (k ∈ x :: xs)); [done | by right].
    + rewrite (bool_decide_eq_false_2 (k ∈ xs)) by done.
      destruct (decide (x = k)) as [->|Hne].
      * rewrite lookup_insert_eq.
        rewrite (bool_decide_eq_true_2 (k ∈ k :: xs)); [done | by left].
      * rewrite lookup_insert_ne by done.
        rewrite (bool_decide_eq_false_2 (k ∈ x :: xs)); [done|].
        rewrite elem_of_cons. intros [?|?]; congruence.
Qed.

(** Construction at a depth of one or more, given room for [dep] nested
    calls: it returns, and level [k] holds the boxes [k] subdivisions below
    the root. *)
Lemma new_levels (fuel : nat) (root : B) (dep : Z) :
  1 <= dep -> dep <= Z.of_nat fuel ->
  exists s,
    new fuel root dep = (Ok tt, s) /\
    depth s = dep /\
    splits s = preorder (Z.to_nat (dep - 1)) root /\
    forall k, quadrants s !! k =
              if bool_decide (0 <= k < dep) then Some (gen (Z.to_nat k) [root])
              else None.
Proof.
  intros Hdep Hfuel. unfold QuadTree.new, init, blank.
  unfold bindM at 1. unfold clear_quads at 1. simpl.
  unfold bindM at 1. unfold set_depth at 1. simpl.
  destruct (init_slots (seqZ 0 dep) (State ∅ dep [])) as (s1 & Hrun1 & Hd1 & Hsp1 & Hq1).
  unfold bindM at 1. rewrite Hrun1.
  unfold bindM at 1. unfold setitem at 1.
  set (s2 := State (<[0 := [root]]> (quads s1)) (depth s1) (splits s1)).
  destruct (recurse_levels (Z.to_nat (dep - 1)) fuel root 1 s2)
    as (s3 & Hrun3 & Hd3 & Hsp3 & Hq3).
  { simpl. rewrite Hd1. simpl. lia. }
  { lia. }
  { intros k Hk. simpl in *. rewrite Hd1 in Hk. simpl in Hk.
    rewrite lookup_insert_ne by lia. rewrite Hq1.
    rewrite bool_decide_eq_true_2; [eauto|]. apply elem_of_seqZ. lia. }
  exists s3. split; [exact Hrun3|].
  split; [rewrite Hd3; simpl; by rewrite Hd1|].
  split; [rewrite Hsp3; simpl; by rewrite Hsp1|].
  intros k. unfold quadrants. rewrite Hq3. cbn [quads depth s2]. rewrite Hd1.
  cbn [depth]. unfold QuadTree.grown.
  destruct (decide (0 = k)) as [<-|Hne].
  - rewrite lookup_insert_eq. cbn [fmap option_fmap option_map].
    rewrite (bool_decide_eq_false_2 (1 <= 0 < dep)) by lia.
    by rewrite (bool_decide_eq_true_2 (0 <= 0 < dep)) by lia.
  - rewrite lookup_insert_ne by done. rewrite Hq1. cbn [quads].
    rewrite lookup_empty.
    destruct (decide (1 <= k < dep)) as [Hin|Hout].
    + rewrite (bool_decide_eq_true_2 (k ∈ seqZ 0 dep)) by (apply elem_of_seqZ; lia).
      cbn [fmap option_fmap option_map].
      rewrite (bool_decide_eq_true_2 (1 <= k < dep)) by done.
      rewrite (bool_decide_eq_true_2 (0 <= k < dep)) by lia. f_equal.
      replace (Z.to_nat k) with (S (Z.to_nat (k - 1))) by lia.
      by rewrite gen_singleton.
    + rewrite (bool_decide_eq_false_2 (0 <= k < dep)) by lia.
      rewrite (bool_decide_eq_false_2 (k ∈ seqZ 0 dep)); [done|].
      rewrite elem_of_seqZ. lia.
Qed.



Section FourQuads.

Hypothesis four : forall b, length (compute_quads b) = 4%nat.

Lemma length_flat_map_four (l : list B) :
  length (flat_map compute_quads l) = (4 * length l)%nat.
Proof.
  induction l as [|x l IH]; [reflexivity|].
  cbn [flat_map]. rewrite length_app, four, IH. cbn [length]. lia.
Qed.

Lemma length_gen (j : nat) (bs : list B) :
  length (gen j bs) = (4 ^ j * length bs)%nat.
Proof.
  revert bs; induction j as [|j IH]; intros bs; cbn [QuadTree.gen].
  - simpl. lia.
  - rewrite IH, length_flat_map_four. rewrite Nat.pow_succ_r'. lia.
Qed.

Lemma lookup_flat_map_four (l : list B) :
  forall (i : nat) (p : B) (j : nat),
    l !! i = Some p -> (j < 4)%nat ->
    flat_map compute_quads l !! (4 * i + j)%nat = compute_quads p !! j.
Proof.
  induction l as [|x l IH]; intros i p j Hi Hj; [done|].
  cbn [flat_map]. destruct i as [|i].
  - injection Hi as ->. rewrite Nat.mul_0_r, Nat.add_0_l.
    apply lookup_app_l. rewrite four. exact Hj.
  - rewrite lookup_app_r by (rewrite four; lia).
    rewrite four. replace (4 * S i + j - 4)%nat with (4 * i + j)%nat by lia.
    apply IH; assumption.
Qed.

End FourQuads.

Section Areas.

Variable area : B -> Q.
Hypothesis partition : forall b, (total_area area (compute_quads b) == area b)%Q.

Lemma total_area_app (a b : list B) :
  (total_area area (a ++ b) == total_area area a + total_area area b)%Q.
Proof.
  induction a as [|x a IH].
  - change (total_area area b == 0 + total_area area b)%Q.
    symmetry. apply Qplus_0_l.
  - change (area x + total_area area (a ++ b)
            == area x + total_area area a + total_area area b)%Q.
    rewrite IH. apply Qplus_assoc.
Qed.

Lemma total_area_flat_map (l : list B) :
  (total_area area (flat_map compute_quads l) == total_area area l)%Q.
Proof.
  induction l as [|x l IH]; [reflexivity|].
  cbn [flat_map]. rewrite total_area_app, partition, IH. reflexivity.
Qed.

Lemma total_area_gen (j : nat) (bs : list B) :
  (total_area area (gen j bs) == total_area area bs)%Q.
Proof.
  revert bs; induction j as [|j IH]; intros bs; cbn [QuadTree.gen].
  - reflexivity.
  - rewrite IH. apply total_area_flat_map.
Qed.

End Areas.


(** ** The registry built by construction *)

(** C1: with a collaborator that yields four sub-boxes per box, construction
    at a depth of one or more returns a registry whose keys are exactly
    0 .. depth-1; level 0 is the root box alone and every level [d] with
    0 < d < depth has 4^d boxes; at depth 1 the registry is level 0 only. *)
Theorem registry_levels (fuel : nat) (root : B) (dep : Z) :
  (forall b, length (compute_quads b) = 4%nat) ->
  1 <= dep -> dep <= Z.of_nat fuel ->
  exists s,
    new fuel root dep = (Ok tt, s) /\
    (forall k, k ∈ dom (quadrants s) <-> 0 <= k < dep) /\
    quadrants s !! 0 = Some [root] /\
    (forall d, 0 < d < dep ->
       exists l, quadrants s !! d = Some l /\ Z.of_nat (length l) = 4 ^ d) /\
    (dep = 1 -> quadrants s = {[0 := [root]]}).
Proof.
  intros Hfour Hdep Hfuel.
  destruct (new_levels fuel root dep Hdep Hfuel) as (s & Hrun & _ & _ & Hq).
  exists s. split; [exact Hrun|]. split; [|split; [|split]].
  - intros k. rewrite elem_of_dom, Hq. case_bool_decide.
    + split; [done | eauto].
    + split; [by intros [? ?] | done].
  - rewrite Hq. by rewrite bool_decide_eq_true_2 by lia.
  - intros d Hd. rewrite Hq. rewrite bool_decide_eq_true_2 by lia.
    eexists; split; [reflexivity|].
    rewrite (length_gen Hfour). cbn [length]. rewrite Nat.mul_1_r.
    rewrite Nat2Z.inj_pow. rewrite Z2Nat.id by lia. reflexivity.
  - intros ->. apply map_eq. intros k. rewrite Hq.
    destruct (decide (0 = k)) as [<-|Hne].
    + by rewrite lookup_singleton_eq.
    + rewrite lookup_singleton_ne by done.
      by rewrite bool_decide_eq_false_2 by lia.
Qed.

(** C2: with a collaborator that yields four sub-boxes per box, every
    populated level [d >= 1] is the concatenation of the splits of the boxes
    of level [d-1], taken in their order at level [d-1]: the children of the
    parent at position [i] sit at positions [4i .. 4i+3], in the order the
    collaborator returned them. *)
Theorem level_order (fuel : nat) (root : B) (dep : Z) :
  (forall b, length (compute_quads b) = 4%nat) ->
  1 <= dep -> dep <= Z.of_nat fuel ->
  exists s,
    new fuel root dep = (Ok tt, s) /\
    forall d, 1 <= d < dep ->
      exists parents children,
        quadrants s !! (d - 1) = Some parents /\
        quadrants s !! d = Some children /\
        children = flat_map compute_quads parents /\
        forall (i : nat) (p : B) (j : nat),
          parents !! i = Some p -> (j < 4)%nat ->
          children !! (4 * i + j)%nat = compute_quads p !! j.
Proof.
  intros Hfour Hdep Hfuel.
  destruct (new_levels fuel root dep Hdep Hfuel) as (s & Hrun & _ & _ & Hq).
  exists s. split; [exact Hrun|]. intros d Hd.
  exists (gen (Z.to_nat (d - 1)) [root]), (gen (Z.to_nat d) [root]).
  rewrite !Hq. rewrite !bool_decide_eq_true_2 by lia.
  split; [reflexivity|]. split; [reflexivity|].
  replace (Z.to_nat d) with (S (Z.to_nat (d - 1))) by lia.
  rewrite gen_succ. split; [reflexivity|].
  intros i p j Hi Hj. by apply lookup_flat_map_four.
Qed.

(** C3: when the sub-boxes of every box add up to its area, the boxes of
    every populated level add up to the area of the root box. *)
Theorem level_area (area : B -> Q) (fuel : nat) (root : B) (dep : Z) :
  (forall b, (total_area area (compute_quads b) == area b)%Q) ->
  1 <= dep -> dep <= Z.of_nat fuel ->
  exists s,
    new fuel root dep = (Ok tt, s) /\
    forall d, 0 <= d < dep ->
      exists l, quadrants s !! d = Some l /\ (total_area area l == area root)%Q.
Proof.
  intros Hpart Hdep Hfuel.
  destruct (new_levels fuel root dep Hdep Hfuel) as (s & Hrun & _ & _ & Hq).
  exists s. split; [exact Hrun|]. intros d Hd.
  rewrite Hq. rewrite bool_decide_eq_true_2 by lia.
  eexists; split; [reflexivity|].
  rewrite (total_area_gen area Hpart).
  change (area root + 0 == area root)%Q. apply Qplus_0_r.
Qed.

(** C8, as the code has it: a depth below one is not checked.  Construction
    stores the root at level 0, enters [recurse] and splits the root; the
    first sub-box then raises [KeyError(1)], there being no slot 1, and
    when the split is empty construction returns the registry
    [{0: [root]}]. *)
Theorem construction_below_one (fuel : nat) (root : B) (dep : Z) :
  dep < 1 -> (1 <= fuel)%nat ->
  new fuel root dep =
    (match compute_quads root with [] => Ok tt | _ :: _ => Raise (KeyError 1) end,
     State {[0 := [root]]} dep [root]).
Proof.
  intros Hdep Hfuel. destruct fuel as [|fuel]; [lia|].
  unfold QuadTree.new, init, blank.
  unfold seqZ. replace (Z.to_nat dep) with 0%nat by lia.
  cbn [seq fmap list_fmap for_each QuadTree.recurse].
  unfold bindM, clear_quads, set_depth, ret, setitem, get_depth,
    call_compute_quads. cbn [quads depth splits].
  replace (dep =? 1) with false by (symmetry; apply Z.eqb_neq; lia).
  rewrite insert_empty. cbn [app].
  destruct (compute_quads root) as [|q qs]; [reflexivity|].
  cbn [for_each]. unfold bindM, append_quad. cbn [quads depth splits].
  rewrite lookup_singleton_ne by lia. reflexivity.
Qed.

(** C9, as the code has it: the number of sub-boxes is never checked.  For
    any collaborator, construction at a depth of one or more returns, and
    every populated level [d >= 1] holds every sub-box the collaborator
    returned for the boxes of level [d-1], as returned. *)
Theorem split_accepted_as_is (fuel : nat) (root : B) (dep : Z) :
  1 <= dep -> dep <= Z.of_nat fuel ->
  exists s,
    new fuel root dep = (Ok tt, s) /\
    forall d, 1 <= d < dep ->
      exists parents,
        quadrants s !! (d - 1) = Some parents /\
        quadrants s !! d = Some (flat_map compute_quads parents).
Proof.
  intros Hdep Hfuel.
  destruct (new_levels fuel root dep Hdep Hfuel) as (s & Hrun & _ & _ & Hq).
  exists s. split; [exact Hrun|]. intros d Hd.
  exists (gen (Z.to_nat (d - 1)) [root]).
  rewrite !Hq. rewrite !bool_decide_eq_true_2 by lia.
  split; [reflexivity|].
  replace (Z.to_nat d) with (S (Z.to_nat (d - 1))) by lia.
  by rewrite gen_succ.
Qed.

End SubdivisionFacts.

(** ** The example bounding box *)

Lemma compute_quads_four (b : BoundingBox.t) :
  length (BoundingBox.compute_quads b) = 4%nat.
Proof. reflexivity. Qed.

Lemma compute_quads_partition (b : BoundingBox.t) :
  (total_area BoundingBox.area (BoundingBox.compute_quads b) == BoundingBox.area b)%Q.
Proof.
  destruct b as [x0 x1 y0 y1].
  unfold total_area, BoundingBox.compute_quads, BoundingBox.area, BoundingBox.mid.
  cbn [foldr BoundingBox.x_min BoundingBox.x_max BoundingBox.y_min BoundingBox.y_max].
  rewrite !Qred_correct. field.
Qed.

Lemma registry_levels_witness :
  exists s,
    QuadTree.new BoundingBox.compute_quads 1000 BoundingBox.example 3 = (Ok tt, s) /\
    (forall k, k ∈ dom (QuadTree.quadrants s) <-> 0 <= k < 3) /\
    QuadTree.quadrants s !! 0 = Some [BoundingBox.example] /\
    (forall d, 0 < d < 3 ->
       exists l, QuadTree.quadrants s !! d = Some l /\ Z.of_nat (length l) = 4 ^ d) /\
    (3 = 1 -> QuadTree.quadrants s = {[0 := [BoundingBox.example]]}).
Proof.
  apply (registry_levels BoundingBox.compute_quads 1000 BoundingBox.example 3).
  - exact compute_quads_four.
  - lia.
  - lia.
Defined.

Lemma level_order_witness :
  exists s,
    QuadTree.new BoundingBox.compute_quads 1000 BoundingBox.example 3 = (Ok tt, s) /\
    forall d, 1 <= d < 3 ->
      exists parents children,
        QuadTree.quadrants s !! (d - 1) = Some parents /\
        QuadTree.quadrants s !! d = Some children /\
        children = flat_map BoundingBox.compute_quads parents /\
        forall (i : nat) (p : BoundingBox.t) (j : nat),
          parents !! i = Some p -> (j < 4)%nat ->
          children !! (4 * i + j)%nat = BoundingBox.compute_quads p !! j.
Proof.
  apply (level_order BoundingBox.compute_quads 1000 BoundingBox.example 3).
  - exact compute_quads_four.
  - lia.
  - lia.
Defined.

Lemma level_area_witness :
  exists s,
    QuadTree.new BoundingBox.compute_quads 1000 BoundingBox.example 3 = (Ok tt, s) /\
    forall d, 0 <= d < 3 ->
      exists l, QuadTree.quadrants s !! d = Some l /\
                (total_area BoundingBox.area l == BoundingBox.area BoundingBox.example)%Q.
Proof.
  apply (level_area BoundingBox.compute_quads BoundingBox.area 1000
           BoundingBox.example 3).
  - exact compute_quads_partition.
  - lia.
  - lia.
Defined.

(** C8, counterexample: at depth 0 construction does fail, but inside
    [recurse], after the root has been split. *)
Lemma depth_zero_not_rejected_up_front :
  QuadTree.new BoundingBox.compute_quads 1000 BoundingBox.example 0
    = (Raise (KeyError 1),
       QuadTree.State {[0 := [BoundingBox.example]]} 0 [BoundingBox.example]) /\
  ~ QuadTree.rejected_up_front
      (QuadTree.new BoundingBox.compute_quads 1000 BoundingBox.example 0).
Proof.
  assert (Hrun : QuadTree.new BoundingBox.compute_quads 1000 BoundingBox.example 0
    = (Raise (KeyError 1),
       QuadTree.State {[0 := [BoundingBox.example]]} 0 [BoundingBox.example])).
  { vm_compute. reflexivity. }
  split; [exact Hrun|].
  intros (e & s & Heq & Hs). rewrite Hrun in Heq.
  injection Heq as _ <-. discriminate Hs.
Qed.

Lemma construction_below_one_witness :
  QuadTree.new BoundingBox.compute_quads 1000 BoundingBox.example (-2)
    = (Raise (KeyError 1),
       QuadTree.State {[0 := [BoundingBox.example]]} (-2) [BoundingBox.example]).
Proof.
  apply (construction_below_one BoundingBox.compute_quads 1000 BoundingBox.example (-2)).
  - lia.
  - lia.
Defined.

(** C9, counterexample: the collaborator returns two sub-boxes for the
    root and construction returns, with both stored at level 1. *)
Lemma two_halves_accepted :
  length (BoundingBox.compute_halves BoundingBox.example) <> 4%nat /\
  QuadTree.new BoundingBox.compute_halves 1000 BoundingBox.example 2
    = (Ok tt,
       QuadTree.State
         {[0 := [BoundingBox.example];
           1 := BoundingBox.compute_halves BoundingBox.example]}
         2 [BoundingBox.example]).
Proof. split; [discriminate|]. vm_compute. reflexivity. Qed.

Lemma split_accepted_as_is_witness :
  exists s,
    QuadTree.new BoundingBox.compute_halves 1000 BoundingBox.example 3 = (Ok tt, s) /\
    forall d, 1 <= d < 3 ->
      exists parents,
        QuadTree.quadrants s !! (d - 1) = Some parents /\
        QuadTree.quadrants s !! d
          = Some (flat_map BoundingBox.compute_halves parents).
Proof.
  apply (split_accepted_as_is BoundingBox.compute_halves 1000 BoundingBox.example 3).
  - lia.
  - lia.
Defined.

(** ** The helpers on floats *)

Section HelperFacts.

Import Helpers.

Variable ln : float -> float.

Lemma loghelper_finite (n : Z) :
  0 < n -> is_infinity (float_of_int n) = false ->
  loghelper ln n = Ok (ln (float_of_int n)).
Proof.
  intros Hn Hfin. unfold loghelper.
  replace (n <=? 0) with false by (symmetry; apply Z.leb_gt; lia).
  rewrite Hfin. reflexivity.
Qed.

(** [math.log(n, 4)] once the float of [n] and the two logarithms are
    known. *)
Lemma math_log_at (n : Z) (x y4 yx : float) :
  0 < n -> float_of_int n = x -> is_infinity x = false ->
  ln 4 = y4 -> ln x = yx ->
  math_log ln n 4
    = if is_zero y4 then Raise ZeroDivisionError else Ok (yx / y4)%float.
Proof.
  intros Hn Hx Hfin H4 Hyx. unfold math_log.
  rewrite (loghelper_finite n Hn) by (rewrite Hx; exact Hfin).
  rewrite (loghelper_finite 4) by (vm_compute; reflexivity).
  change (float_of_int 4) with 4%float.
  rewrite Hx, H4, Hyx. reflexivity.
Qed.

(** Integers with the same float have the same logarithm. *)
Lemma math_log_same_float (n m : Z) :
  0 < n -> 0 < m -> float_of_int n = float_of_int m ->
  is_infinity (float_of_int m) = false ->
  math_log ln n 4 = math_log ln m 4.
Proof.
  intros Hn Hm Heq Hfin. unfold math_log.
  rewrite (loghelper_finite n Hn) by (rewrite Heq; exact Hfin).
  rewrite (loghelper_finite m Hm Hfin). rewrite Heq. reflexivity.
Qed.

End HelperFacts.

Lemma table_log_agrees : Helpers.agrees_with_glibc Helpers.table_log.
Proof.
  intros x y Hin. cbv [In Helpers.glibc_log] in Hin.
  repeat (destruct Hin as [Heq|Hin];
          [injection Heq as <- <-; vm_compute; reflexivity|]).
  destruct Hin.
Qed.

Ltac known_log H :=
  apply H; cbv [In Helpers.glibc_log];
  repeat (first [left; reflexivity | right]).

Ltac eval_math_log ln H n x yx :=
  rewrite (math_log_at ln n x 0x1.62e42fefa39efp+0%float yx)
    by first [lia | vm_compute; reflexivity | known_log H].

(** C4, at the failing input: with glibc's logarithm the four values the
    claim lists come out right, but at the exact power [4^29] the quotient
    of the logarithms is just above 29, so that [level] is 30 and [at_least]
    is [4^30]. *)
Theorem exact_powers_off_by_one (ln : float -> float) :
  Helpers.agrees_with_glibc ln ->
  Helpers.level ln 16 = Ok 2 /\
  Helpers.level ln 17 = Ok 3 /\
  Helpers.at_least ln 16 = Ok (PyInt 16) /\
  Helpers.at_most ln 16 = Ok (PyInt 16) /\
  Helpers.level ln (4 ^ 29) = Ok 30 /\
  Helpers.at_least ln (4 ^ 29) = Ok (PyInt (4 ^ 30)).
Proof.
  intros H. unfold Helpers.level, Helpers.at_least, Helpers.at_most.
  eval_math_log ln H 16 16%float 0x1.62e42fefa39efp+1%float.
  eval_math_log ln H 17 17%float 0x1.6aa6bc1fa7f7ap+1%float.
  eval_math_log ln H (4 ^ 29) 0x1p+58%float 0x1.419ecb712c481p+5%float.
  repeat split; vm_compute; reflexivity.
Qed.

Lemma exact_powers_off_by_one_witness :
  Helpers.level Helpers.table_log 16 = Ok 2 /\
  Helpers.level Helpers.table_log 17 = Ok 3 /\
  Helpers.at_least Helpers.table_log 16 = Ok (PyInt 16) /\
  Helpers.at_most Helpers.table_log 16 = Ok (PyInt 16) /\
  Helpers.level Helpers.table_log (4 ^ 29) = Ok 30 /\
  Helpers.at_least Helpers.table_log (4 ^ 29) = Ok (PyInt (4 ^ 30)).
Proof.
  apply (exact_powers_off_by_one Helpers.table_log).
  exact table_log_agrees.
Defined.

(** C5, at the failing input: [4^27 + 1] and [4^27] have the same float, so
    [at_least] returns the same for both whatever the logarithm is; with
    glibc's it is [4^27], which is less than [4^27 + 1].  [at_least(900)] is
    1024. *)
Theorem at_least_below_argument (ln : float -> float) :
  Helpers.at_least ln (4 ^ 27 + 1) = Helpers.at_least ln (4 ^ 27) /\
  (Helpers.agrees_with_glibc ln ->
   Helpers.at_least ln (4 ^ 27 + 1) = Ok (PyInt (4 ^ 27)) /\
   Helpers.at_least ln 900 = Ok (PyInt 1024)).
Proof.
  split.
  - unfold Helpers.at_least.
    rewrite (math_log_same_float ln (4 ^ 27 + 1) (4 ^ 27));
      [reflexivity | lia | lia | vm_compute; reflexivity | vm_compute; reflexivity].
  - intros H. unfold Helpers.at_least.
    eval_math_log ln H (4 ^ 27 + 1) 0x1p+54%float 0x1.2b708872320e2p+5%float.
    eval_math_log ln H 900 900%float 0x1.b35a6f90bd69bp+2%float.
    split; vm_compute; reflexivity.
Qed.

Lemma at_least_below_argument_witness :
  Helpers.at_least Helpers.table_log (4 ^ 27 + 1) = Ok (PyInt (4 ^ 27)) /\
  Helpers.at_least Helpers.table_log 900 = Ok (PyInt 1024).
Proof.
  apply (at_least_below_argument Helpers.table_log).
  exact table_log_agrees.
Defined.

(** C6, at the failing input: [4^27 - 1] and [4^27] have the same float, so
    [at_most] returns the same for both whatever the logarithm is; with
    glibc's it is [4^27], which is more than [4^27 - 1].  [at_most(900)] is
    256. *)
Theorem at_most_above_argument (ln : float -> float) :
  Helpers.at_most ln (4 ^ 27 - 1) = Helpers.at_most ln (4 ^ 27) /\
  (Helpers.agrees_with_glibc ln ->
   Helpers.at_most ln (4 ^ 27 - 1) = Ok (PyInt (4 ^ 27)) /\
   Helpers.at_most ln 900 = Ok (PyInt 256)).
Proof.
  split.
  - unfold Helpers.at_most.
    rewrite (math_log_same_float ln (4 ^ 27 - 1) (4 ^ 27));
      [reflexivity | lia | lia | vm_compute; reflexivity | vm_compute; reflexivity].
  - intros H. unfold Helpers.at_most.
    eval_math_log ln H (4 ^ 27 - 1) 0x1p+54%float 0x1.2b708872320e2p+5%float.
    eval_math_log ln H 900 900%float 0x1.b35a6f90bd69bp+2%float.
    split; vm_compute; reflexivity.
Qed.

Lemma at_most_above_argument_witness :
  Helpers.at_most Helpers.table_log (4 ^ 27 - 1) = Ok (PyInt (4 ^ 27)) /\
  Helpers.at_most Helpers.table_log 900 = Ok (PyInt 256).
Proof.
  apply (at_most_above_argument Helpers.table_log).
  exact table_log_agrees.
Defined.

(** C7, at the failing inputs: [4^27 + 1] and [4^27] have the same float, so
    [level] returns the same for both whatever the logarithm is; with
    glibc's it is 27 although [4^27 < 4^27 + 1], and [level(4^29)] is 30
    although [4^29 >= 4^29].  [level(1)], [level(5)] and [level(900)] are
    0, 2 and 5. *)
Theorem level_off_by_one (ln : float -> float) :
  Helpers.level ln (4 ^ 27 + 1) = Helpers.level ln (4 ^ 27) /\
  (Helpers.agrees_with_glibc ln ->
   Helpers.level ln (4 ^ 27 + 1) = Ok 27 /\
   Helpers.level ln (4 ^ 29) = Ok 30 /\
   Helpers.level ln 1 = Ok 0 /\
   Helpers.level ln 5 = Ok 2 /\
   Helpers.level ln 900 = Ok 5).
Proof.
  split.
  - unfold Helpers.level.
    rewrite (math_log_same_float ln (4 ^ 27 + 1) (4 ^ 27));
      [reflexivity | lia | lia | vm_compute; reflexivity | vm_compute; reflexivity].
  - intros H. unfold Helpers.level.
    eval_math_log ln H (4 ^ 27 + 1) 0x1p+54%float 0x1.2b708872320e2p+5%float.
    eval_math_log ln H (4 ^ 29) 0x1p+58%float 0x1.419ecb712c481p+5%float.
    eval_math_log ln H 1 1%float 0%float.
    eval_math_log ln H 5 5%float 0x1.9c041f7ed8d33p+0%float.
    eval_math_log ln H 900 900%float 0x1.b35a6f90bd69bp+2%float.
    repeat split; vm_compute; reflexivity.
Qed.

Lemma level_off_by_one_witness :
  Helpers.level Helpers.table_log (4 ^ 27 + 1) = Ok 27 /\
  Helpers.level Helpers.table_log (4 ^ 29) = Ok 30 /\
  Helpers.level Helpers.table_log 1 = Ok 0 /\
  Helpers.level Helpers.table_log 5 = Ok 2 /\
  Helpers.level Helpers.table_log 900 = Ok 5.
Proof.
  apply (level_off_by_one Helpers.table_log).
  exact table_log_agrees.
Defined.

(** C10: [at_least(n)] is 4 raised to [level(n)].  When [level(n)] returns
    [e >= 0], [at_least(n)] returns the integer [4^e]; when it returns a
    negative [e], [at_least(n)] returns the float [4.0 ** e]; when it raises,
    [at_least(n)] raises the same exception.  This holds whatever the float
    logarithm returns, since both take the exponent
    [int(math.ceil(math.log(n, 4)))]; and [level(n)] does return whenever
    the quotient of the two logarithms is a finite float. *)
Theorem at_least_pow4_level (ln : float -> float) (n : Z) :
  (forall e, Helpers.level ln n = Ok e -> 0 <= e ->
     Helpers.at_least ln n = Ok (PyInt (4 ^ e))) /\
  (forall e, Helpers.level ln n = Ok e -> e < 0 ->
     Helpers.at_least ln n = Ok (PyFloat (Z.ldexp 1 (2 * e)))) /\
  (forall err, Helpers.level ln n = Raise err ->
     Helpers.at_least ln n = Raise err) /\
  (0 < n -> is_infinity (Helpers.float_of_int n) = false ->
   is_zero (ln 4%float) = false ->
   is_nan (ln (Helpers.float_of_int n) / ln 4)%float = false ->
   is_infinity (ln (Helpers.float_of_int n) / ln 4)%float = false ->
   exists e, Helpers.level ln n = Ok e).
Proof.
  unfold Helpers.at_least, Helpers.level.
  split; [|split; [|split]].
  - intros e Hlevel He.
    destruct (Helpers.math_log ln n 4) as [x|err]; [|discriminate Hlevel].
    cbn [bind] in *. rewrite Hlevel. cbn [bind]. unfold Helpers.pow4.
    replace (0 <=? e) with true by (symmetry; apply Z.leb_le; lia).
    reflexivity.
  - intros e Hlevel He.
    destruct (Helpers.math_log ln n 4) as [x|err]; [|discriminate Hlevel].
    cbn [bind] in *. rewrite Hlevel. cbn [bind]. unfold Helpers.pow4.
    replace (0 <=? e) with false by (symmetry; apply Z.leb_gt; lia).
    reflexivity.
  - intros err Hlevel.
    destruct (Helpers.math_log ln n 4) as [x|err']; cbn [bind] in *.
    + rewrite Hlevel. reflexivity.
    + injection Hlevel as ->. reflexivity.
  - intros Hn Hfin Hden Hnan Hinf.
    rewrite (math_log_at ln n (Helpers.float_of_int n) (ln 4%float)
               (ln (Helpers.float_of_int n)) Hn eq_refl Hfin eq_refl eq_refl).
    rewrite Hden. clear Hden. cbn [bind].
    unfold Helpers.math_ceil, Prim2SF. rewrite Hnan, Hinf.
    destruct (is_zero (ln (Helpers.float_of_int n) / ln 4%float)); [eauto|].
    destruct (Z.frexp _) as [r ex].
    destruct (shr_fexp _ _ _ _ _) as [shr e'].
    destruct (shr_m shr); eauto.
Qed.

Lemma at_least_pow4_level_witness :
  Helpers.level Helpers.table_log 900 = Ok 5 /\
  Helpers.at_least Helpers.table_log 900 = Ok (PyInt (4 ^ 5)).
Proof.
  split; [vm_compute; reflexivity|].
  apply (proj1 (at_least_pow4_level Helpers.table_log 900) 5).
  - vm_compute. reflexivity.
  - lia.
Defined.

(** ** Further facts about the helpers *)

(** X1: a size of zero or less makes each of the three helpers raise
    [ValueError], the domain error of [math.log], whatever the logarithm
    is. *)
Theorem helpers_reject_nonpositive (ln : float -> float) (n : Z) :
  n <= 0 ->
  Helpers.level ln n = Raise ValueError /\
  Helpers.at_least ln n = Raise ValueError /\
  Helpers.at_most ln n = Raise ValueError.
Proof.
  intros Hn.
  assert (Hlog : Helpers.math_log ln n 4 = Raise ValueError).
  { unfold Helpers.math_log, Helpers.loghelper.
    replace (n <=? 0) with true by (symmetry; apply Z.leb_le; exact Hn).
    reflexivity. }
  unfold Helpers.level, Helpers.at_least, Helpers.at_most.
  rewrite Hlog. repeat split.
Qed.

Lemma helpers_reject_nonpositive_witness :
  Helpers.level Helpers.table_log 0 = Raise ValueError /\
  Helpers.at_least Helpers.table_log 0 = Raise ValueError /\
  Helpers.at_most Helpers.table_log 0 = Raise ValueError.
Proof. apply (helpers_reject_nonpositive Helpers.table_log 0). lia. Defined.

Lemma floor_scaled_opp (v e : Z) :
  - Helpers.floor_scaled (- v) e = Helpers.floor_scaled v e \/
  - Helpers.floor_scaled (- v) e = Helpers.floor_scaled v e + 1.
Proof.
  unfold Helpers.floor_scaled. destruct (0 <=? e) eqn:He.
  - left. ring.
  - apply Z.leb_gt in He.
    assert (Hp : 2 ^ (- e) <> 0) by (apply Z.pow_nonzero; lia).
    destruct (Z.eq_dec (v mod 2 ^ (- e)) 0) as [Hz|Hnz].
    + left. rewrite Z_div_zero_opp_full by assumption. ring.
    + right. rewrite Z_div_nz_opp_full by assumption. ring.
Qed.

(** [math.ceil] and [math.floor] raise together, and otherwise differ by
    at most one. *)
Lemma ceil_floor (x : float) :
  (exists e, Helpers.math_floor x = Raise e /\ Helpers.math_ceil x = Raise e) \/
  (exists f, Helpers.math_floor x = Ok f /\
             (Helpers.math_ceil x = Ok f \/ Helpers.math_ceil x = Ok (f + 1))).
Proof.
  unfold Helpers.math_floor, Helpers.math_ceil.
  destruct (Prim2SF x) as [s|s| |s m e].
  - right. exists 0. split; [reflexivity | left; reflexivity].
  - left. exists OverflowError. split; reflexivity.
  - left. exists ValueError. split; reflexivity.
  - right. eexists. split; [reflexivity|].
    set (v := if s then Z.neg m else Z.pos m).
    replace (if s then Z.pos m else Z.neg m) with (- v) by (subst v; by destruct s).
    destruct (floor_scaled_opp v e) as [-> | ->]; [left | right]; reflexivity.
Qed.

(** X2: [at_most(n)] and [at_least(n)] raise the same exception or return
    together, and then [at_least(n)] is [at_most(n)] or the next power of
    four: the two exponents are the floor and the ceiling of one float. *)
Theorem at_least_next_to_at_most (ln : float -> float) (n : Z) :
  (exists e, Helpers.at_most ln n = Raise e /\ Helpers.at_least ln n = Raise e) \/
  (exists f,
     Helpers.at_most ln n = Ok (Helpers.pow4 f) /\
     (Helpers.at_least ln n = Ok (Helpers.pow4 f) \/
      Helpers.at_least ln n = Ok (Helpers.pow4 (f + 1))) /\
     (0 <= f -> Helpers.pow4 f = PyInt (4 ^ f) /\
                Helpers.pow4 (f + 1) = PyInt (4 * 4 ^ f))).
Proof.
  unfold Helpers.at_most, Helpers.at_least.
  destruct (Helpers.math_log ln n 4) as [x|err].
  - cbn [bind].
    destruct (ceil_floor x) as [(e & Hf & Hc) | (f & Hf & Hc)].
    + left. exists e. rewrite Hf, Hc. split; reflexivity.
    + right. exists f. rewrite Hf. split; [reflexivity|]. split.
      * destruct Hc as [-> | ->]; [left | right]; reflexivity.
      * intros Hf0. unfold Helpers.pow4.
        replace (0 <=? f) with true by (symmetry; apply Z.leb_le; lia).
        replace (0 <=? f + 1) with true by (symmetry; apply Z.leb_le; lia).
        split; [reflexivity|]. f_equal.
        rewrite Z.pow_add_r by lia. ring.
  - left. exists err. split; reflexivity.
Qed.

(** X3: positive integers that round to the same finite float get the same
    result, or the same exception, from each of the three helpers. *)
Theorem helpers_see_the_float (ln : float -> float) (n m : Z) :
  0 < n -> 0 < m ->
  Helpers.float_of_int n = Helpers.float_of_int m ->
  is_infinity (Helpers.float_of_int m) = false ->
  Helpers.level ln n = Helpers.level ln m /\
  Helpers.at_least ln n = Helpers.at_least ln m /\
  Helpers.at_most ln n = Helpers.at_most ln m.
Proof.
  intros Hn Hm Heq Hfin.
  unfold Helpers.level, Helpers.at_least, Helpers.at_most.
  rewrite (math_log_same_float ln n m Hn Hm Heq Hfin). repeat split.
Qed.

Lemma helpers_see_the_float_witness :
  Helpers.level Helpers.table_log (2 ^ 53 + 1) = Helpers.level Helpers.table_log (2 ^ 53) /\
  Helpers.at_least Helpers.table_log (2 ^ 53 + 1)
    = Helpers.at_least Helpers.table_log (2 ^ 53) /\
  Helpers.at_most Helpers.table_log (2 ^ 53 + 1)
    = Helpers.at_most Helpers.table_log (2 ^ 53).
Proof.
  apply (helpers_see_the_float Helpers.table_log (2 ^ 53 + 1) (2 ^ 53)).
  - lia.
  - lia.
  - vm_compute. reflexivity.
  - vm_compute. reflexivity.
Defined.

(** ** Further facts about the subdivision *)

Section MoreSubdivisionFacts.

Context {B : Type}.
Variable compute_quads : B -> list B.

Import QuadTree.

Local Abbreviation gen := (QuadTree.gen compute_quads).
Local Abbreviation preorder := (QuadTree.preorder compute_quads).
Local Abbreviation recurse := (QuadTree.recurse compute_quads).
Local Abbreviation new := (QuadTree.new compute_quads).
Local Abbreviation state := (@QuadTree.state B).

(** [__init__] up to the call of [recurse]: the slots 0 .. depth-1 are
    empty, except slot 0, which holds the root, and slot 0 exists even
    when [range(depth)] is empty. *)
Lemma init_then_recurse (fuel : nat) (root : B) (dep : Z) :
  exists s0 : state,
    new fuel root dep = recurse fuel root 1 s0 /\
    depth s0 = dep /\
    splits s0 = [] /\
    quads s0 !! 0 = Some [root] /\
    forall k, k <> 0 ->
      quads s0 !! k = if bool_decide (0 <= k < dep) then Some [] else None.
Proof.
  unfold QuadTree.new, init, blank.
  unfold bindM at 1. unfold clear_quads at 1. cbn [quads depth splits].
  unfold bindM at 1. unfold set_depth at 1. cbn [quads depth splits].
  destruct (init_slots (seqZ 0 dep) (State (BoundingBox := B) ∅ dep []))
    as (s1 & Hrun1 & Hd1 & Hsp1 & Hq1).
  unfold bindM at 1. rewrite Hrun1.
  unfold bindM at 1. unfold setitem at 1.
  eexists. split; [reflexivity|]. cbn [quads depth splits].
  split; [exact Hd1|]. split; [exact Hsp1|].
  split; [apply lookup_insert_eq|].
  intros k Hk. rewrite lookup_insert_ne by done. rewrite Hq1.
  cbn [quads]. rewrite lookup_empty.
  destruct (decide (0 <= k < dep)) as [Hin|Hout].
  - rewrite (bool_decide_eq_true_2 (0 <= k < dep)) by done.
    rewrite (bool_decide_eq_true_2 (k ∈ seqZ 0 dep)); [done|].
    apply elem_of_seqZ. lia.
  - rewrite (bool_decide_eq_false_2 (0 <= k < dep)) by done.
    rewrite (bool_decide_eq_false_2 (k ∈ seqZ 0 dep)); [done|].
    rewrite elem_of_seqZ. lia.
Qed.


Lemma flat_map_nil {A} (l : list A) : flat_map (fun _ : A => @nil B) l = [].
Proof. induction l as [|x l IH]; [reflexivity | exact IH]. Qed.

Lemma flat_map_cons_split (f : B -> list B) (bs : list B) :
  flat_map (fun b => b :: f b) bs ≡ₚ bs ++ flat_map f bs.
Proof.
  induction bs as [|b bs IH]; [reflexivity|].
  cbn [flat_map app]. constructor. rewrite IH.
  rewrite !app_assoc. apply Permutation_app_tail, Permutation_app_comm.
Qed.

Lemma flat_map_flat_map {A} (f : B -> list A) (bs : list B) :
  flat_map (fun b => flat_map f (compute_quads b)) bs
  = flat_map f (flat_map compute_quads bs).
Proof.
  induction bs as [|b bs IH]; [reflexivity|].
  cbn [flat_map]. rewrite flat_map_app, IH. reflexivity.
Qed.

(** The boxes split below [bs], in call order, are the boxes of the first
    [n] generations, in some order. *)
Lemma preorder_generations (n : nat) :
  forall bs : list B,
    flat_map (preorder n) bs ≡ₚ concat (map (fun j => gen j bs) (seq 0 n)).
Proof.
  induction n as [|n IH]; intros bs.
  - cbn [QuadTree.preorder seq map concat]. by rewrite flat_map_nil.
  - cbn [QuadTree.preorder].
    rewrite (flat_map_cons_split
               (fun b => flat_map (preorder n) (compute_quads b)) bs).
    rewrite flat_map_flat_map, IH.
    cbn [seq map concat QuadTree.gen]. apply Permutation_app_head.
    rewrite <- seq_shift, map_map. reflexivity.
Qed.

(** X5: construction at a depth of one or more calls [compute_quads] once on
    every box of the levels 0 .. depth-2 and on nothing else: the boxes of
    the last level are never split, and at depth 1 nothing is. *)
Theorem splits_inner_levels (fuel : nat) (root : B) (dep : Z) :
  1 <= dep -> dep <= Z.of_nat fuel ->
  exists s (inner : list (list B)),
    new fuel root dep = (Ok tt, s) /\
    Z.of_nat (length inner) = dep - 1 /\
    (forall (i : nat) (l : list B),
       inner !! i = Some l -> quadrants s !! Z.of_nat i = Some l) /\
    splits s ≡ₚ concat inner.
Proof.
  intros Hdep Hfuel.
  destruct (new_levels compute_quads fuel root dep Hdep Hfuel)
    as (s & Hrun & _ & Hsp & Hq).
  exists s, (map (fun j => gen j [root]) (seq 0 (Z.to_nat (dep - 1)))).
  split; [exact Hrun|]. split; [|split].
  - rewrite length_map, length_seq. lia.
  - intros i l Hi. apply list_lookup_fmap_Some in Hi as (j & -> & Hj).
    apply lookup_seq in Hj as [-> Hlt]. rewrite Hq.
    rewrite bool_decide_eq_true_2 by lia. by rewrite Nat2Z.id.
  - rewrite Hsp. rewrite <- preorder_generations.
    cbn [flat_map]. by rewrite app_nil_r.
Qed.

Lemma length_flat_map_const (c : nat) (l : list B) :
  (forall b, length (compute_quads b) = c) ->
  length (flat_map compute_quads l) = (c * length l)%nat.
Proof.
  intros Hc. induction l as [|x l IH]; [cbn; lia|].
  cbn [flat_map]. rewrite length_app, Hc, IH. cbn [length]. lia.
Qed.

Lemma length_gen_const (c : nat) (j : nat) (bs : list B) :
  (forall b, length (compute_quads b) = c) ->
  length (gen j bs) = (c ^ j * length bs)%nat.
Proof.
  intros Hc. revert bs; induction j as [|j IH]; intros bs; cbn [QuadTree.gen].
  - cbn. lia.
  - rewrite IH, (length_flat_map_const c) by exact Hc.
    rewrite Nat.pow_succ_r'. lia.
Qed.

(** X6: nothing in the subdivision depends on the number four.  With a
    collaborator that returns [c] sub-boxes for every box, construction at
    a depth of one or more returns a registry with the keys 0 .. depth-1
    and [c^d] boxes at level [d]; with [c = 0] the levels from 1 on exist
    and are empty. *)
Theorem registry_any_arity (c fuel : nat) (root : B) (dep : Z) :
  (forall b, length (compute_quads b) = c) ->
  1 <= dep -> dep <= Z.of_nat fuel ->
  exists s,
    new fuel root dep = (Ok tt, s) /\
    (forall k, k ∈ dom (quadrants s) <-> 0 <= k < dep) /\
    forall d, 0 <= d < dep ->
      exists l, quadrants s !! d = Some l /\
                Z.of_nat (length l) = Z.of_nat c ^ d.
Proof.
  intros Hc Hdep Hfuel.
  destruct (new_levels compute_quads fuel root dep Hdep Hfuel)
    as (s & Hrun & _ & _ & Hq).
  exists s. split; [exact Hrun|]. split.
  - intros k. rewrite elem_of_dom, Hq. case_bool_decide.
    + split; [done | eauto].
    + split; [by intros [? ?] | done].
  - intros d Hd. rewrite Hq. rewrite bool_decide_eq_true_2 by lia.
    eexists; split; [reflexivity|].
    rewrite (length_gen_const c) by exact Hc. cbn [length].
    rewrite Nat.mul_1_r, Nat2Z.inj_pow, Z2Nat.id by lia. reflexivity.
Qed.

Lemma recurse_exhausts (fuel : nat) :
  (forall b, compute_quads b <> []) ->
  forall (b : B) (d : Z) (s : state),
    Z.of_nat fuel <= depth s - d ->
    (forall k, d <= k < depth s -> is_Some (quads s !! k)) ->
    exists s', recurse fuel b d s = (Raise RecursionError, s').
Proof.
  intros Hne. induction fuel as [|fuel IH]; intros b d s Hfuel Hkeys.
  - exists s. reflexivity.
  - cbn [QuadTree.recurse]. unfold bindM at 1, get_depth.
    replace (depth s =? d) with false by (symmetry; apply Z.eqb_neq; lia).
    unfold bindM at 1, call_compute_quads.
    destruct (compute_quads b) as [|q qs] eqn:Hqs; [by destruct (Hne b)|].
    cbn [for_each]. unfold bindM at 1. unfold bindM at 1.
    unfold append_quad at 1. cbn [quads depth splits].
    destruct (Hkeys d ltac:(lia)) as [l Hl]. rewrite Hl.
    destruct (IH q (d + 1)
                (State (<[d := l ++ [q]]> (quads s)) (depth s) (splits s ++ [b])))
      as (s' & Hrun).
    { cbn [depth]. lia. }
    { intros k Hk. cbn [quads depth] in *.
      rewrite lookup_insert_ne by lia. apply Hkeys. lia. }
    rewrite Hrun. exists s'. reflexivity.
Qed.

(** X7: the subdivision nests one call of [recurse] per level.  When no
    split is empty and fewer nested calls are allowed than the depth asks
    for, construction raises [RecursionError]. *)
Theorem recursion_limit_too_low (fuel : nat) (root : B) (dep : Z) :
  (forall b, compute_quads b <> []) ->
  Z.of_nat fuel < dep ->
  exists s, new fuel root dep = (Raise RecursionError, s).
Proof.
  intros Hne Hfuel.
  destruct (init_then_recurse fuel root dep) as (s0 & -> & Hd & _ & H0 & Hk).
  apply (recurse_exhausts fuel Hne).
  - rewrite Hd. lia.
  - intros k Hkd. rewrite Hd in Hkd. rewrite Hk by lia.
    rewrite bool_decide_eq_true_2 by lia. eauto.
Qed.

End MoreSubdivisionFacts.


Lemma splits_inner_levels_witness :
  exists s (inner : list (list BoundingBox.t)),
    QuadTree.new BoundingBox.compute_quads 1000 BoundingBox.example 3 = (Ok tt, s) /\
    Z.of_nat (length inner) = 3 - 1 /\
    (forall (i : nat) (l : list BoundingBox.t),
       inner !! i = Some l -> QuadTree.quadrants s !! Z.of_nat i = Some l) /\
    QuadTree.splits s ≡ₚ concat inner.
Proof.
  apply (splits_inner_levels BoundingBox.compute_quads 1000 BoundingBox.example 3).
  - lia.
  - lia.
Defined.

Lemma registry_any_arity_witness :
  exists s,
    QuadTree.new BoundingBox.compute_halves 1000 BoundingBox.example 4 = (Ok tt, s) /\
    (forall k, k ∈ dom (QuadTree.quadrants s) <-> 0 <= k < 4) /\
    forall d, 0 <= d < 4 ->
      exists l, QuadTree.quadrants s !! d = Some l /\
                Z.of_nat (length l) = Z.of_nat 2 ^ d.
Proof.
  apply (registry_any_arity BoundingBox.compute_halves 2 1000 BoundingBox.example 4).
  - reflexivity.
  - lia.
  - lia.
Defined.

Lemma recursion_limit_too_low_witness :
  exists s,
    QuadTree.new BoundingBox.compute_quads 2 BoundingBox.example 5
      = (Raise RecursionError, s).
Proof.
  apply (recursion_limit_too_low BoundingBox.compute_quads 2 BoundingBox.example 5).
  - discriminate.
  - lia.
Defined.

(** X8: the helpers size the tree.  When [level(n)] returns [e >= 0], a
    tree of depth [e + 1] over a collaborator that yields four sub-boxes
    per box has exactly [at_least(n)] boxes at its last level, whatever the
    logarithm is. *)
Theorem last_level_has_at_least {B : Type} (compute_quads : B -> list B)
    (ln : float -> float) (n e : Z) (fuel : nat) (root : B) :
  (forall b, length (compute_quads b) = 4%nat) ->
  Helpers.level ln n = Ok e ->
  0 <= e -> e + 1 <= Z.of_nat fuel ->
  exists s l,
    QuadTree.new compute_quads fuel root (e + 1) = (Ok tt, s) /\
    QuadTree.quadrants s !! e = Some l /\
    (forall k, k ∈ dom (QuadTree.quadrants s) -> k <= e) /\
    Helpers.at_least ln n = Ok (PyInt (Z.of_nat (length l))).
Proof.
  intros Hfour Hlevel He Hfuel.
  destruct (new_levels compute_quads fuel root (e + 1)) as (s & Hrun & _ & _ & Hq);
    [lia | lia |].
  exists s, (QuadTree.gen compute_quads (Z.to_nat e) [root]).
  split; [exact Hrun|]. split; [|split].
  - rewrite Hq. by rewrite bool_decide_eq_true_2 by lia.
  - intros k. rewrite elem_of_dom, Hq. case_bool_decide; [lia | by intros [? ?]].
  - unfold Helpers.at_least. unfold Helpers.level in Hlevel.
    destruct (Helpers.math_log ln n 4) as [x|err]; [|discriminate Hlevel].
    cbn [bind] in *. rewrite Hlevel. cbn [bind]. do 2 f_equal.
    unfold Helpers.pow4.
    replace (0 <=? e) with true by (symmetry; apply Z.leb_le; lia).
    f_equal. rewrite (length_gen compute_quads Hfour). cbn [length].
    rewrite Nat.mul_1_r, Nat2Z.inj_pow, Z2Nat.id by lia. reflexivity.
Qed.

Lemma last_level_has_at_least_witness :
  exists s l,
    QuadTree.new BoundingBox.compute_quads 1000 BoundingBox.example (5 + 1) = (Ok tt, s) /\
    QuadTree.quadrants s !! 5 = Some l /\
    (forall k, k ∈ dom (QuadTree.quadrants s) -> k <= 5) /\
    Helpers.at_least Helpers.table_log 900 = Ok (PyInt (Z.of_nat (length l))).
Proof.
  apply (last_level_has_at_least BoundingBox.compute_quads Helpers.table_log
           900 5 1000 BoundingBox.example).
  - exact compute_quads_four.
  - vm_compute. reflexivity.
  - lia.
  - lia.
Defined.
